(** * Generador de paleta por imagen: the extraction pipeline and its host glue

    A shallow embedding of [generador_paleta.py].

    Numbers.  The Python code works on float64 values; they are idealised
    here as exact rationals ([Q]).  The Euclidean norm is kept exact by
    carrying the radicand: a value of type [Norm] stands for the square
    root of its field, and its meaning as a real number is [Norm_val].

    Libraries.  PIL (decoding, RGB conversion, resizing) and scikit-learn
    (KMeans) are not part of the repository: the development is parametric
    in them (the class [Libraries]), and every theorem holds for any
    behaviour of those collaborators unless it states a hypothesis about
    them.  The module [Toy] gives one small instance, used only to evaluate
    the code on concrete inputs.

    Blender.  [bpy.data] is modelled as far as the add-on touches it:
    materials with their user counts, meshes with their material slots,
    objects, and the unique naming of datablocks. *)

From Stdlib Require Import List Bool ZArith QArith Qround String Ascii Lia.
From Stdlib Require Import Reals Qreals Lra.
From Stdlib Require DecimalString DecimalNat Finite.
Import ListNotations.

Set Implicit Arguments.

Open Scope string_scope.
Open Scope list_scope.
Open Scope Q_scope.

(** ** Numbers *)

Module Num.

Definition Qltb (x y : Q) : bool := negb (Qle_bool y x).

(** Python's [int(x)] on a float: truncation toward zero. *)
Definition py_int (x : Q) : Z := Z.quot (Qnum x) (Zpos (Qden x)).

(** A float that is the square root of [radicand] (the result of
    [np.linalg.norm]). *)
Record Norm : Type := mkNorm { radicand : Q }.

(** [distance < t] for [distance = sqrt radicand]: false for every
    [t <= 0], else decided on the squares. *)
Definition Norm_ltb (d : Norm) (t : Q) : bool :=
  Qltb 0 t && Qltb (radicand d) (t * t).

(** [distance >= t], stated on its own. *)
Definition Norm_geb (d : Norm) (t : Q) : bool :=
  Qle_bool t 0 || Qle_bool (t * t) (radicand d).


End Num.
Import Num.

(** ** Colours and the arithmetic of numpy rows *)

Record Color : Type := mkColor { red : Q; green : Q; blue : Q }.

(** [a - b] on rows of three floats. *)
Definition row_sub (a b : Color) : Color :=
  mkColor (red a - red b) (green a - green b) (blue a - blue b).

(** [row / 255.0] *)
Definition row_div (a : Color) (d : Q) : Color :=
  mkColor (red a / d) (green a / d) (blue a / d).

(** [np.linalg.norm(v)]: the square root of the sum of the squares. *)
Definition linalg_norm (v : Color) : Norm :=
  mkNorm (red v * red v + green v * green v + blue v * blue v).

(** ** The filter of near-identical colours (lines 55-65) *)

(** The inner [for existing_color in colores_finales_unicos] loop; the value
    is [is_unique] when the loop ends.  The [break] is the [false] branch,
    which does not look at the rest of the list. *)
Fixpoint is_unique_loop (new_color : Color) (existing : list Color)
    (tolerancia_unicos : Q) : bool :=
  match existing with
  | [] => true
  | existing_color :: rest =>
      let distance := linalg_norm (row_sub new_color existing_color) in
      if Norm_ltb distance tolerancia_unicos
      then false
      else is_unique_loop new_color rest tolerancia_unicos
  end.

(** The outer [for new_color in colores_rgb_normalizados] loop, threading the
    list [colores_finales_unicos], which grows by [append]. *)
Fixpoint filtrar_loop (colores_rgb_normalizados : list Color)
    (colores_finales_unicos : list Color) (tolerancia_unicos : Q)
    : list Color :=
  match colores_rgb_normalizados with
  | [] => colores_finales_unicos
  | new_color :: rest =>
      let is_unique :=
        is_unique_loop new_color colores_finales_unicos tolerancia_unicos in
      filtrar_loop rest
        (if is_unique
         then colores_finales_unicos ++ [new_color]
         else colores_finales_unicos)
        tolerancia_unicos
  end.

(** Lines 55-65 as a whole: the list starts empty. *)
Definition filtrar_colores_unicos (colores_rgb_normalizados : list Color)
    (tolerancia_unicos : Q) : list Color :=
  filtrar_loop colores_rgb_normalizados [] tolerancia_unicos.






(** [sub] is a subsequence of [l]: elements of [l], in the order of [l]. *)
Inductive Subsequence {A : Type} : list A -> list A -> Prop :=
| Subsequence_nil : Subsequence [] []
| Subsequence_skip x sub l : Subsequence sub l -> Subsequence sub (x :: l)
| Subsequence_keep x sub l : Subsequence sub l -> Subsequence (x :: sub) (x :: l).

(** ** Exceptions, the world outside, and the libraries *)

(** What the [try] of [extraer_paleta_de_imagen] tells apart: a
    [FileNotFoundError], and every other subclass of [Exception]; each
    carries [str(e)]. *)
Inductive exn : Type :=
| FileNotFoundError (msg : string)
| Exception (msg : string).

(** A computation that returns a value or raises. *)
Definition Exc (A : Type) : Type := (exn + A)%type.

Definition ret {A : Type} (a : A) : Exc A := inr a.
Definition raise {A : Type} (e : exn) : Exc A := inl e.
Definition bind {A B : Type} (m : Exc A) (k : A -> Exc B) : Exc B :=
  match m with
  | inl e => inl e
  | inr a => k a
  end.

Notation "x <- m ;; k" := (bind m (fun x => k))
  (at level 61, m at next level, right associativity).

(** A random generator as scikit-learn's [check_random_state] hands it to the
    clusterer: a fresh one built from an integer seed, or numpy's
    process-wide generator in whatever state it is. *)
Inductive RandomState : Type :=
| Seeded (seed : Z)
| Singleton (state : Z).

(** What a call can observe outside its arguments: the files, and the state
    of numpy's process-wide generator. *)
Record World : Type := mkWorld {
  fs : string -> option (list Byte.byte);
  np_random : Z
}.

Definition check_random_state (w : World) (random_state : option Z)
    : RandomState :=
  match random_state with
  | Some seed => Seeded seed
  | None => Singleton (np_random w)
  end.

(** PIL's resampling filters. *)
Inductive Resampling : Type :=
| NEAREST | BOX | BILINEAR | HAMMING | BICUBIC | LANCZOS.

(** A [uint8] RGB sample. *)
Definition Pixel : Type := (Z * Z * Z)%type.

(** An image in mode RGB: [size] is [(width, height)], [np_array] the rows
    that [np.array(img)] yields. *)
Record Image : Type := mkImage {
  size : Z * Z;
  np_array : list (list Pixel)
}.

(** The library calls of [extraer_paleta_de_imagen], each of which may
    raise.  [KMeans_fit rs n_clusters n_init X] stands for
    [KMeans(n_clusters, random_state, n_init).fit(X).cluster_centers_]. *)
Class Libraries : Type := {
  RawImage : Type;
  PIL_open : list Byte.byte -> Exc RawImage;
  PIL_convert_RGB : RawImage -> Exc Image;
  PIL_resize : Image -> Z * Z -> Resampling -> Exc Image;
  KMeans_fit : RandomState -> Z -> Z -> list Pixel -> Exc (list Color)
}.

(** ** The extraction (lines 31-75) *)

Definition NUM_COLORES_PALETA : Z := 8.
Definition CREAR_OBJETOS_DE_REFERENCIA : bool := true.
Definition REESCALAR_IMAGEN_PROCESAMIENTO : Q := 3 # 10.
Definition PREFIJO_NOMBRE_DEFAULT : string := "Paleta_".
Definition TOLERANCIA_COLOR_UNICOS : Q := 5 # 100.

Section Extraction.

Context {L : Libraries}.

(** [Image.open(imagen_path)]: a path with no file raises
    [FileNotFoundError]; otherwise PIL reads the bytes. *)
Definition Image_open (w : World) (imagen_path : string) : Exc RawImage :=
  match fs w imagen_path with
  | None =>
      raise (FileNotFoundError
               ("[Errno 2] No such file or directory: '" ++ imagen_path ++ "'")%string)
  | Some bytes => PIL_open bytes
  end.

(** Lines 40-41: the size asked of [resize]. *)
Definition nuevo_tamano (tamano_original : Z * Z) (reescalar_factor : Q)
    : Z * Z :=
  let '(ancho_original, alto_original) := tamano_original in
  let nuevo_ancho := py_int (inject_Z ancho_original * reescalar_factor) in
  let nuevo_alto := py_int (inject_Z alto_original * reescalar_factor) in
  (nuevo_ancho, nuevo_alto).


(** Lines 38-47: the rescaling branch and the flattening into samples. *)
Definition muestrear (img : Image) (reescalar_factor : Q)
    : Exc (list Pixel) :=
  data <- (if Qltb 0 reescalar_factor && Qltb reescalar_factor 1
           then
             img_redimensionada <-
               PIL_resize img (nuevo_tamano (size img) reescalar_factor)
                 LANCZOS ;;
             ret (np_array img_redimensionada)
           else ret (np_array img)) ;;
  ret (List.concat data).

(** The body of the [try] (lines 35-68). *)
Definition extraer_cuerpo (w : World) (imagen_path : string)
    (num_colores : Z) (reescalar_factor tolerancia_unicos : Q)
    : Exc (list Color) :=
  img <- Image_open w imagen_path ;;
  img <- PIL_convert_RGB img ;;
  pixels <- muestrear img reescalar_factor ;;
  cluster_centers_ <-
    KMeans_fit (check_random_state w (Some 0%Z)) num_colores 10 pixels ;;
  let colores_rgb_normalizados :=
    map (fun c => row_div c 255) cluster_centers_ in
  ret (filtrar_colores_unicos colores_rgb_normalizados tolerancia_unicos).

(** The function with its two handlers: what it prints, and what it returns
    ([None] is Python's [None]). *)
Definition extraer_paleta_de_imagen (w : World) (imagen_path : string)
    (num_colores : Z) (reescalar_factor tolerancia_unicos : Q)
    : list string * option (list Color) :=
  match extraer_cuerpo w imagen_path num_colores reescalar_factor
          tolerancia_unicos with
  | inr colores_finales_unicos => ([], Some colores_finales_unicos)
  | inl (FileNotFoundError _) =>
      (["Error: La imagen no se encontró en la ruta: " ++ imagen_path]%string,
       None)
  | inl (Exception e) =>
      (["Error al procesar la imagen: " ++ e]%string, None)
  end.

End Extraction.

(** ** The host: Blender's data, as far as the add-on touches it *)

(** [s.startswith(pre)] *)
Definition startswith (s pre : string) : bool := String.prefix pre s.

(** [sub in s] *)
Fixpoint contains (sub s : string) : bool :=
  String.prefix sub s ||
  match s with
  | EmptyString => false
  | String _ rest => contains sub rest
  end.

Definition str_of_nat (n : nat) : string :=
  DecimalString.NilZero.string_of_uint (Nat.to_uint n).

(** [f"{i:02d}"] *)
Definition fmt_02d (i : nat) : string :=
  if (i <? 10)%nat then ("0" ++ str_of_nat i)%string else str_of_nat i.

(** The three-digit suffix Blender numbers name clashes with. *)
Definition fmt_03d (i : nat) : string :=
  if (i <? 10)%nat then ("00" ++ str_of_nat i)%string
  else if (i <? 100)%nat then ("0" ++ str_of_nat i)%string
  else str_of_nat i.

Record Material : Type := mkMaterial {
  mat_name : string;
  users : nat;
  use_nodes : bool;
  diffuse_color : Q * Q * Q * Q
}.

(** [obj.data]: the mesh owns the material slots, by material name. *)
Record Mesh : Type := mkMesh {
  mesh_name : string;
  mesh_materials : list string
}.

Record Object : Type := mkObject {
  obj_name : string;
  obj_data : string;
  location_x : Q
}.

Inductive Mode : Type := OBJECT | EDIT.

(** [context.scene.image_generar_paleta_settings] *)
Record GenerarPaletaSettings : Type := mkSettings {
  num_colores_paleta : Z;
  crear_objetos_referencia : bool;
  reescalar_imagen_procesamiento : Q;
  prefijo_nombre : string;
  tolerancia_color_unicos : Q
}.

Definition settings_default : GenerarPaletaSettings :=
  mkSettings NUM_COLORES_PALETA CREAR_OBJETOS_DE_REFERENCIA
    REESCALAR_IMAGEN_PROCESAMIENTO PREFIJO_NOMBRE_DEFAULT
    TOLERANCIA_COLOR_UNICOS.

(** [bpy.data] and [bpy.context], as one value. *)
Record Blender : Type := mkBlender {
  materials : list Material;
  meshes : list Mesh;
  objects : list Object;
  mode : Mode;
  active_object : option string;
  settings : GenerarPaletaSettings
}.

Definition with_materials (b : Blender) (ms : list Material) : Blender :=
  mkBlender ms (meshes b) (objects b) (mode b) (active_object b) (settings b).
Definition with_meshes (b : Blender) (ms : list Mesh) : Blender :=
  mkBlender (materials b) ms (objects b) (mode b) (active_object b)
    (settings b).
Definition with_objects (b : Blender) (os : list Object) : Blender :=
  mkBlender (materials b) (meshes b) os (mode b) (active_object b)
    (settings b).
Definition with_mode (b : Blender) (m : Mode) : Blender :=
  mkBlender (materials b) (meshes b) (objects b) m (active_object b)
    (settings b).
Definition with_active (b : Blender) (a : option string) : Blender :=
  mkBlender (materials b) (meshes b) (objects b) (mode b) a (settings b).

(** Names are unique per kind of datablock: a taken name gets the first free
    [.NNN] suffix on its stem. *)
Definition name_in (n : string) (used : list string) : bool :=
  existsb (String.eqb n) used.

Definition is_digit (c : ascii) : bool :=
  ((48 <=? nat_of_ascii c) && (nat_of_ascii c <=? 57))%nat.

Fixpoint drop_digits (l : list ascii) : list ascii :=
  match l with
  | c :: rest => if is_digit c then drop_digits rest else l
  | [] => []
  end.

Definition stem (name : string) : string :=
  let r := rev (list_ascii_of_string name) in
  match r with
  | c :: _ =>
      if is_digit c
      then match drop_digits r with
           | "."%char :: rest => string_of_list_ascii (rev rest)
           | _ => name
           end
      else name
  | [] => name
  end.

Fixpoint first_free (base : string) (used : list string) (n fuel : nat)
    : string :=
  let candidate := (base ++ "." ++ fmt_03d n)%string in
  match fuel with
  | O => candidate
  | S fuel' =>
      if name_in candidate used
      then first_free base used (S n) fuel'
      else candidate
  end.

Definition unique_name (used : list string) (name : string) : string :=
  if name_in name used
  then first_free (stem name) used 1 (List.length used)
  else name.

Definition find_object (b : Blender) (name : string) : option Object :=
  find (fun o => String.eqb (obj_name o) name) (objects b).

Definition find_mesh (b : Blender) (name : string) : option Mesh :=
  find (fun m => String.eqb (mesh_name m) name) (meshes b).

Definition update_material (name : string) (f : Material -> Material)
    (b : Blender) : Blender :=
  with_materials b
    (map (fun m => if String.eqb (mat_name m) name then f m else m)
       (materials b)).

Definition user_add (name : string) : Blender -> Blender :=
  update_material name
    (fun m => mkMaterial (mat_name m) (S (users m)) (use_nodes m)
                (diffuse_color m)).

Definition user_drop (name : string) : Blender -> Blender :=
  update_material name
    (fun m => mkMaterial (mat_name m) (pred (users m)) (use_nodes m)
                (diffuse_color m)).

(** [bpy.data.materials.new(name=...)]: a material nobody uses yet, under a
    name that may differ from the one asked for. *)
Definition materials_new (b : Blender) (name : string) : Blender * string :=
  let name' := unique_name (map mat_name (materials b)) name in
  (with_materials b
     (materials b ++
      [mkMaterial name' 0 false (8 # 10, 8 # 10, 8 # 10, 1)]),
   name').

(** [bpy.data.materials.remove(mat)] *)
Definition materials_remove (b : Blender) (mat : Material) : Blender :=
  with_materials b
    (filter (fun m => negb (String.eqb (mat_name m) (mat_name mat)))
       (materials b)).

(** [bpy.data.objects.remove(obj, do_unlink=True)]: the object goes, its mesh
    stays in [bpy.data.meshes] and keeps its material slots. *)
Definition objects_remove (b : Blender) (obj : Object) : Blender :=
  let b' :=
    with_objects b
      (filter (fun o => negb (String.eqb (obj_name o) (obj_name obj)))
         (objects b)) in
  match active_object b with
  | Some a => if String.eqb a (obj_name obj) then with_active b' None else b'
  | None => b'
  end.

(** [bpy.ops.mesh.primitive_uv_sphere_add(radius=0.5)]: a new mesh and a new
    object on it, which becomes the active one. *)
Definition primitive_uv_sphere_add (b : Blender) : Blender :=
  let mname := unique_name (map mesh_name (meshes b)) "Sphere" in
  let oname := unique_name (map obj_name (objects b)) "Sphere" in
  with_active
    (with_objects
       (with_meshes b (meshes b ++ [mkMesh mname []]))
       (objects b ++ [mkObject oname mname 0]))
    (Some oname).

(** [obj.name = name]: the name given is made unique among the others. *)
Definition object_rename (b : Blender) (old name : string)
    : Blender * string :=
  let others :=
    filter (fun n => negb (String.eqb n old)) (map obj_name (objects b)) in
  let name' := unique_name others name in
  let b' :=
    with_objects b
      (map (fun o =>
              if String.eqb (obj_name o) old
              then mkObject name' (obj_data o) (location_x o)
              else o)
         (objects b)) in
  (match active_object b with
   | Some a => if String.eqb a old then with_active b' (Some name') else b'
   | None => b'
   end,
   name').

(** [bpy.ops.object.duplicate()]: a copy of the active object on a copy of
    its mesh; every material in the copied slots gains a user; the copy
    becomes the active object. *)
Definition object_duplicate (b : Blender) : Exc Blender :=
  match active_object b with
  | None => raise (Exception "no active object")
  | Some a =>
      match find_object b a with
      | None => raise (Exception "no active object")
      | Some o =>
          match find_mesh b (obj_data o) with
          | None => raise (Exception "object without data")
          | Some m =>
              let mname :=
                unique_name (map mesh_name (meshes b)) (mesh_name m) in
              let oname :=
                unique_name (map obj_name (objects b)) (obj_name o) in
              let b1 :=
                fold_left (fun acc mat => user_add mat acc)
                  (mesh_materials m) b in
              ret (with_active
                     (with_objects
                        (with_meshes b1
                           (meshes b1 ++ [mkMesh mname (mesh_materials m)]))
                        (objects b1 ++ [mkObject oname mname (location_x o)]))
                     (Some oname))
          end
      end
  end.

(** [obj.location.x = x] *)
Definition set_location_x (b : Blender) (obj : string) (x : Q) : Blender :=
  with_objects b
    (map (fun o =>
            if String.eqb (obj_name o) obj
            then mkObject (obj_name o) (obj_data o) x
            else o)
       (objects b)).

(** Lines 103-106: the material goes into slot 0 of the object's mesh, in
    place of what was there, or is appended when there is no slot. *)
Definition assign_material (b : Blender) (obj material : string)
    : Exc Blender :=
  match find_object b obj with
  | None => raise (Exception "object not found")
  | Some o =>
      match find_mesh b (obj_data o) with
      | None => raise (Exception "object without data")
      | Some m =>
          let slots' :=
            match mesh_materials m with
            | [] => [material]
            | _ :: rest => material :: rest
            end in
          let b1 :=
            match mesh_materials m with
            | [] => b
            | old :: _ => user_drop old b
            end in
          let b2 := user_add material b1 in
          ret (with_meshes b2
                 (map (fun m' =>
                         if String.eqb (mesh_name m') (mesh_name m)
                         then mkMesh (mesh_name m') slots'
                         else m')
                    (meshes b2)))
      end
  end.

(** Lines 77-81. *)
Definition crear_material_desde_color (b : Blender) (nombre_material : string)
    (rgb_color : Color) : Blender * string :=
  let '(b1, mat) := materials_new b nombre_material in
  (update_material mat
     (fun m =>
        mkMaterial (mat_name m) (users m) false
          (red rgb_color, green rgb_color, blue rgb_color, 1))
     b1,
   mat).

(** Lines 91-106: the loop of [crear_esferas_de_paleta], [i] counting from
    where [enumerate] is. *)
Fixpoint esferas_loop (prefijo_nombre : string) (base_esfera : string)
    (i : nat) (colores : list Color) (b : Blender) : Exc Blender :=
  match colores with
  | [] => ret b
  | color_rgb :: rest =>
      sel <- (if (i =? 0)%nat
              then ret (b, base_esfera)
              else
                b1 <- object_duplicate b ;;
                match active_object b1 with
                | None => raise (Exception "no active object")
                | Some obj =>
                    let b2 :=
                      set_location_x b1 obj (inject_Z (Z.of_nat i) * (3 # 2)) in
                    ret (object_rename b2 obj
                           (prefijo_nombre ++ fmt_02d i)%string)
                end) ;;
      let '(b3, obj) := sel in
      let mat_name := (prefijo_nombre ++ fmt_02d i)%string in
      let '(b4, material) :=
        crear_material_desde_color b3 mat_name color_rgb in
      b5 <- assign_material b4 obj material ;;
      esferas_loop prefijo_nombre base_esfera (S i) rest b5
  end.

(** Lines 83-106. *)
Definition crear_esferas_de_paleta (b : Blender) (colores : list Color)
    (prefijo_nombre : string) : Exc Blender :=
  let b0 := match mode b with OBJECT => b | _ => with_mode b OBJECT end in
  let b1 := primitive_uv_sphere_add b0 in
  match active_object b1 with
  | None => raise (Exception "no active object")
  | Some base =>
      let '(b2, base_esfera) :=
        object_rename b1 base (prefijo_nombre ++ "00")%string in
      esferas_loop prefijo_nombre base_esfera 0 colores b2
  end.


(** Lines 108-127. *)
Definition limpiar_materiales_paleta (b : Blender) : Blender :=
  let current_prefix := prefijo_nombre (settings b) in
  let materials_to_remove :=
    filter
      (fun mat =>
         startswith (mat_name mat) PREFIJO_NOMBRE_DEFAULT ||
         startswith (mat_name mat) current_prefix)
      (materials b) in
  let b1 :=
    fold_left
      (fun acc mat =>
         if (users mat =? 0)%nat then materials_remove acc mat else acc)
      materials_to_remove b in
  let objects_to_remove :=
    filter
      (fun obj =>
         startswith (obj_name obj) PREFIJO_NOMBRE_DEFAULT ||
         startswith (obj_name obj) current_prefix ||
         contains "Color_Referencia_" (obj_name obj))
      (objects b1) in
  fold_left (fun acc obj => objects_remove acc obj) objects_to_remove b1.

(** ** The operator (lines 147-184) *)

Inductive ReportLevel : Type := INFO | ERROR.
Inductive OperatorResult : Type := FINISHED | CANCELLED.

(** What [execute] leaves behind: Blender's data, the reports, the lines
    printed, and the set it returns. *)
Record Outcome : Type := mkOutcome {
  blender : Blender;
  reports : list (ReportLevel * string);
  printed : list string;
  result : OperatorResult
}.

(** Lines 179-181: materials only. *)
Fixpoint solo_materiales_loop (prefijo_nombre : string) (i : nat)
    (colores : list Color) (b : Blender) : Blender :=
  match colores with
  | [] => b
  | color_rgb :: rest =>
      let mat_name := (prefijo_nombre ++ fmt_02d i)%string in
      solo_materiales_loop prefijo_nombre (S i) rest
        (fst (crear_material_desde_color b mat_name color_rgb))
  end.

Section Operator.

Context {L : Libraries}.

Definition execute (w : World) (filepath : string) (b : Blender)
    : Exc Outcome :=
  if String.eqb filepath ""
  then
    ret (mkOutcome b
           [(ERROR, "Por favor, selecciona una imagen primero.")] []
           CANCELLED)
  else
    let r0 := [(INFO, ("Procesando imagen: " ++ filepath)%string)] in
    let num_colores := num_colores_paleta (settings b) in
    let crear_objetos := crear_objetos_referencia (settings b) in
    let reescalar_factor := reescalar_imagen_procesamiento (settings b) in
    let prefijo := prefijo_nombre (settings b) in
    let tolerancia_colores := tolerancia_color_unicos (settings b) in
    let b1 := limpiar_materiales_paleta b in
    let '(out, colores_extraidos) :=
      extraer_paleta_de_imagen w filepath num_colores reescalar_factor
        tolerancia_colores in
    let fallo :=
      mkOutcome b1
        (r0 ++
         [(ERROR,
           "No se pudieron extraer colores de la imagen. Verifica la ruta o el archivo.")])
        out CANCELLED in
    match colores_extraidos with
    | None => ret fallo
    | Some [] => ret fallo
    | Some colores =>
        let n := str_of_nat (List.length colores) in
        if crear_objetos
        then
          b2 <- crear_esferas_de_paleta b1 colores prefijo ;;
          ret (mkOutcome b2
                 (r0 ++
                  [(INFO,
                    ("Paleta de " ++ n ++
                     " colores únicos generada y aplicada a esferas.")%string)])
                 out FINISHED)
        else
          ret (mkOutcome (solo_materiales_loop prefijo 0 colores b1)
                 (r0 ++
                  [(INFO,
                    ("Paleta de " ++ n ++
                     " colores únicos generada (solo materiales).")%string)])
                 out FINISHED)
    end.

End Operator.

(** ** A small instance of the libraries

    Used only to run the code on concrete inputs.  An image file is
    [width; height] followed by three bytes per pixel, row by row; anything
    else does not decode.  [resize] refuses an empty target as PIL does and
    otherwise samples the source.  The clusterer follows scikit-learn's
    interface: it raises when there are fewer samples than clusters (or no
    cluster is asked for), and otherwise returns exactly [n_clusters]
    centres, which ones depending on the random generator it is given. *)

Module Toy.

Fixpoint pixels_of_bytes (l : list Z) : option (list Pixel) :=
  match l with
  | [] => Some []
  | r :: g :: b :: rest =>
      match pixels_of_bytes rest with
      | Some px => Some ((r, g, b) :: px)
      | None => None
      end
  | _ => None
  end.

Fixpoint rows_of (h w : nat) (px : list Pixel) : list (list Pixel) :=
  match h with
  | O => []
  | S h' => firstn w px :: rows_of h' w (skipn w px)
  end.

Definition open (bytes : list Byte.byte) : Exc Image :=
  match map (fun b => Z.of_nat (Byte.to_nat b)) bytes with
  | w :: h :: rest =>
      match pixels_of_bytes rest with
      | Some px =>
          if (Z.of_nat (List.length px) =? w * h)%Z
          then ret (mkImage (w, h) (rows_of (Z.to_nat h) (Z.to_nat w) px))
          else raise (Exception "cannot identify image file")
      | None => raise (Exception "cannot identify image file")
      end
  | _ => raise (Exception "cannot identify image file")
  end.

Definition resize (img : Image) (sz : Z * Z) (resample : Resampling)
    : Exc Image :=
  let '(w, h) := sz in
  let '(W, H) := size img in
  if ((w <? 1) || (h <? 1))%Z
  then raise (Exception "height and width must be > 0")
  else
    ret (mkImage (w, h)
           (map (fun y =>
                   map (fun x =>
                          nth (x * Z.to_nat W / Z.to_nat w)%nat
                            (nth (y * Z.to_nat H / Z.to_nat h)%nat
                               (np_array img) [])
                            (0, 0, 0)%Z)
                     (seq 0 (Z.to_nat w)))
              (seq 0 (Z.to_nat h)))).

Definition color_of_pixel (p : Pixel) : Color :=
  let '(r, g, b) := p in mkColor (inject_Z r) (inject_Z g) (inject_Z b).

Definition rotate {A : Type} (n : nat) (l : list A) : list A :=
  skipn n l ++ firstn n l.

Definition kmeans (rs : RandomState) (n_clusters n_init : Z)
    (X : list Pixel) : Exc (list Color) :=
  let n_samples := Z.of_nat (List.length X) in
  if (n_clusters <? 1)%Z
  then raise (Exception "n_clusters must be an int in the range [1, inf)")
  else if (n_samples <? n_clusters)%Z
  then raise (Exception
                ("n_samples=" ++ str_of_nat (List.length X) ++
                 " should be >= n_clusters=" ++
                 str_of_nat (Z.to_nat n_clusters) ++ ".")%string)
  else
    let s := match rs with Seeded s => s | Singleton s => s end in
    let start := Z.to_nat (s mod n_samples) in
    ret (map color_of_pixel (firstn (Z.to_nat n_clusters) (rotate start X))).

#[export] Instance libraries : Libraries := {
  RawImage := Image;
  PIL_open := open;
  PIL_convert_RGB := fun img => ret img;
  PIL_resize := resize;
  KMeans_fit := kmeans
}.

Definition bytes_of (l : list nat) : list Byte.byte :=
  map (fun n => match Byte.of_nat n with
                | Some b => b
                | None => Byte.x00
                end) l.

(** A world with one file at [path]. *)
Definition one_file (path : string) (bytes : list Byte.byte) (rng : Z)
    : World :=
  mkWorld (fun p => if String.eqb p path then Some bytes else None) rng.

(** A world without files. *)
Definition no_file : World := mkWorld (fun _ => None) 0%Z.

(** Two pixels side by side, black and white. *)
Definition black_white : list Byte.byte :=
  bytes_of [2; 1; 0; 0; 0; 255; 255; 255]%nat.

(** Two by two pixels in two colours. *)
Definition two_colours_2x2 : list Byte.byte :=
  bytes_of [2; 2; 0; 0; 0; 255; 255; 255; 0; 0; 0; 255; 255; 255]%nat.


(** Blender with nothing in it and the default settings. *)
Definition empty_blender : Blender :=
  mkBlender [] [] [] OBJECT None settings_default.

(** Blender with nothing in it, set to two colours at full scale. *)
Definition blender_two_colours : Blender :=
  mkBlender [] [] [] OBJECT None
    (mkSettings 2 true 1 PREFIJO_NOMBRE_DEFAULT TOLERANCIA_COLOR_UNICOS).

(** Blender as a run with spheres leaves it, plus a material nobody uses
    and a material of another name. *)
Definition blender_after_a_run : Blender :=
  mkBlender
    [mkMaterial "Paleta_00" 1 false (0, 0, 0, 1);
     mkMaterial "Paleta_01" 1 false (1, 1, 1, 1);
     mkMaterial "Paleta_99" 0 false (1, 0, 0, 1);
     mkMaterial "Material" 0 false (8 # 10, 8 # 10, 8 # 10, 1)]
    [mkMesh "Sphere" ["Paleta_00"]; mkMesh "Sphere.001" ["Paleta_01"];
     mkMesh "Cube" []]
    [mkObject "Paleta_00" "Sphere" 0; mkObject "Paleta_01" "Sphere.001" (3 # 2);
     mkObject "Cube" "Cube" 0]
    OBJECT (Some "Paleta_01") settings_default.


End Toy.

(** * Properties *)

(** ** Numbers *)


Lemma Qltb_ge (x y : Q) : Qltb x y = false <-> y <= x.
Proof.
  unfold Qltb. now rewrite negb_false_iff, Qle_bool_iff.
Qed.

(** [>=] is the negation of [<] on norms. *)
Lemma Norm_geb_negb_ltb (d : Norm) (t : Q) :
  Norm_geb d t = negb (Norm_ltb d t).
Proof.
  unfold Norm_geb, Norm_ltb, Qltb.
  now rewrite negb_andb, !negb_involutive.
Qed.

(** Nothing is below a tolerance that is not positive. *)
Lemma Norm_ltb_nonpos (d : Norm) (t : Q) : t <= 0 -> Norm_ltb d t = false.
Proof.
  intros Ht. unfold Norm_ltb.
  apply Qltb_ge in Ht. now rewrite Ht.
Qed.



(** The distance does not depend on the order of the two colours. *)
Lemma distance_sym (a b : Color) :
  radicand (linalg_norm (row_sub a b)) == radicand (linalg_norm (row_sub b a)).
Proof. destruct a, b; cbn. ring. Qed.


Lemma Norm_ltb_sym (a b : Color) (t : Q) :
  Norm_ltb (linalg_norm (row_sub a b)) t
  = Norm_ltb (linalg_norm (row_sub b a)) t.
Proof.
  unfold Norm_ltb, Qltb. do 2 f_equal.
  apply Qleb_comp; [reflexivity | apply distance_sym].
Qed.

(** ** The filter *)

Lemma Subsequence_refl {A : Type} (l : list A) : Subsequence l l.
Proof. induction l; constructor; assumption. Qed.

Lemma Subsequence_length {A : Type} (sub l : list A) :
  Subsequence sub l -> (List.length sub <= List.length l)%nat.
Proof. induction 1; cbn; lia. Qed.

Lemma Subsequence_In {A : Type} (sub l : list A) (x : A) :
  Subsequence sub l -> In x sub -> In x l.
Proof.
  induction 1; cbn; intros Hx; auto.
  destruct Hx; auto.
Qed.

Lemma Subsequence_map {A B : Type} (f : A -> B) (sub l : list A) :
  Subsequence sub l -> Subsequence (map f sub) (map f l).
Proof. induction 1; cbn; constructor; assumption. Qed.


Section Filter.

Variable tol : Q.

(** The inner loop answers whether every accepted colour is at distance
    [>= tol] of the candidate. *)
Lemma is_unique_loop_forallb (c : Color) (acc : list Color) :
  is_unique_loop c acc tol
  = forallb (fun e => Norm_geb (linalg_norm (row_sub c e)) tol) acc.
Proof.
  induction acc as [|e acc IH]; cbn; [reflexivity|].
  rewrite Norm_geb_negb_ltb.
  destruct (Norm_ltb _ tol); cbn; [reflexivity | exact IH].
Qed.

Lemma is_unique_loop_true (c : Color) (acc : list Color) :
  is_unique_loop c acc tol = true ->
  Forall (fun e => Norm_ltb (linalg_norm (row_sub c e)) tol = false) acc.
Proof.
  induction acc as [|e acc IH]; cbn; intros H; constructor.
  - destruct (Norm_ltb _ tol); [discriminate | reflexivity].
  - apply IH. destruct (Norm_ltb _ tol); [discriminate | assumption].
Qed.




(** The loop only ever appends: what was accepted stays, in place, and what
    is added is a subsequence of the candidates. *)
Lemma filtrar_loop_extends (l acc : list Color) :
  exists ext, filtrar_loop l acc tol = acc ++ ext /\ Subsequence ext l.
Proof.
  revert acc. induction l as [|c l IH]; intros acc; cbn.
  - exists []. rewrite app_nil_r. split; [reflexivity | constructor].
  - destruct (is_unique_loop c acc tol).
    + destruct (IH (acc ++ [c])) as [ext [E S]].
      exists (c :: ext). rewrite E, <- app_assoc. split; [reflexivity|].
      now constructor.
    + destruct (IH acc) as [ext [E S]].
      exists ext. split; [assumption | now constructor].
Qed.

Lemma filtrar_Subsequence (cs : list Color) :
  Subsequence (filtrar_colores_unicos cs tol) cs.
Proof.
  unfold filtrar_colores_unicos.
  destruct (filtrar_loop_extends cs []) as [ext [E S]].
  now rewrite E.
Qed.

Lemma filtrar_length (cs : list Color) :
  (List.length (filtrar_colores_unicos cs tol) <= List.length cs)%nat.
Proof. apply Subsequence_length, filtrar_Subsequence. Qed.


Lemma ForallOrdPairs_snoc {A : Type} (R : A -> A -> Prop) (l : list A)
    (x : A) :
  ForallOrdPairs R l -> Forall (fun a => R a x) l ->
  ForallOrdPairs R (l ++ [x]).
Proof.
  induction 1 as [|a l Ha Hl IH]; cbn; intros Hx.
  - constructor; constructor.
  - inversion Hx; subst. constructor.
    + apply Forall_app. split; [assumption | constructor; [assumption | constructor]].
    + now apply IH.
Qed.


(** The outer loop keeps the accepted colours pairwise apart: a later one
    is never closer than [tol] to an earlier one. *)
Lemma filtrar_loop_apart (l acc : list Color) :
  ForallOrdPairs
    (fun a b => Norm_ltb (linalg_norm (row_sub b a)) tol = false) acc ->
  ForallOrdPairs
    (fun a b => Norm_ltb (linalg_norm (row_sub b a)) tol = false)
    (filtrar_loop l acc tol).
Proof.
  revert acc. induction l as [|c l IH]; intros acc Hacc; cbn; [assumption|].
  apply IH. destruct (is_unique_loop c acc tol) eqn:U; [|assumption].
  apply ForallOrdPairs_snoc; [assumption|].
  now apply is_unique_loop_true.
Qed.

Lemma filtrar_apart (cs : list Color) :
  ForallOrdPairs
    (fun a b => Norm_ltb (linalg_norm (row_sub b a)) tol = false)
    (filtrar_colores_unicos cs tol).
Proof. apply filtrar_loop_apart. constructor. Qed.

(** With a tolerance that is not positive every candidate is accepted. *)
Lemma filtrar_loop_nonpos (l acc : list Color) :
  tol <= 0 -> filtrar_loop l acc tol = acc ++ l.
Proof.
  intros Ht. revert acc. induction l as [|c l IH]; intros acc; cbn.
  - now rewrite app_nil_r.
  - assert (U : is_unique_loop c acc tol = true).
    { rewrite is_unique_loop_forallb. apply forallb_forall. intros e _.
      rewrite Norm_geb_negb_ltb, Norm_ltb_nonpos; auto. }
    rewrite U, IH, <- app_assoc. reflexivity.
Qed.

(** The first candidate is always accepted, and stays first. *)
Lemma filtrar_first (c : Color) (cs : list Color) :
  exists rest, filtrar_colores_unicos (c :: cs) tol = c :: rest.
Proof.
  unfold filtrar_colores_unicos. cbn.
  destruct (filtrar_loop_extends cs [c]) as [ext [E _]].
  exists ext. exact E.
Qed.





End Filter.

(** ** The extraction *)

Section ExtractionFacts.

Context {L : Libraries}.

(** A call that returns a palette went through every stage, printed nothing,
    and returns the filtered, normalised centres of the clusterer, which was
    given a generator seeded with 0 and asked for ten initialisations. *)
Lemma extraer_success (w : World) (imagen_path : string) (num_colores : Z)
    (reescalar_factor tolerancia_unicos : Q) (out : list string)
    (palette : list Color) :
  extraer_paleta_de_imagen w imagen_path num_colores reescalar_factor
    tolerancia_unicos = (out, Some palette) ->
  out = [] /\
  exists raw img pixels cluster_centers_,
    Image_open w imagen_path = inr raw /\
    PIL_convert_RGB raw = inr img /\
    muestrear img reescalar_factor = inr pixels /\
    KMeans_fit (Seeded 0) num_colores 10 pixels = inr cluster_centers_ /\
    palette = filtrar_colores_unicos
                (map (fun c => row_div c 255) cluster_centers_)
                tolerancia_unicos.
Proof.
  unfold extraer_paleta_de_imagen, extraer_cuerpo, bind, check_random_state.
  destruct (Image_open w imagen_path) as [e|raw] eqn:E1.
  { destruct e; discriminate. }
  destruct (PIL_convert_RGB raw) as [e|img] eqn:E2.
  { destruct e; discriminate. }
  destruct (muestrear img reescalar_factor) as [e|pixels] eqn:E3.
  { destruct e; discriminate. }
  destruct (KMeans_fit (Seeded 0) num_colores 10 pixels) as [e|cs] eqn:E4.
  { destruct e; discriminate. }
  cbn. intros H. injection H as <- <-.
  split; [reflexivity|].
  exists raw, img, pixels, cs. auto.
Qed.


(** The body looks at the world through the file at [imagen_path] only. *)
Lemma extraer_cuerpo_world (w1 w2 : World) (imagen_path : string)
    (num_colores : Z) (reescalar_factor tolerancia_unicos : Q) :
  fs w1 imagen_path = fs w2 imagen_path ->
  extraer_cuerpo w1 imagen_path num_colores reescalar_factor tolerancia_unicos
  = extraer_cuerpo w2 imagen_path num_colores reescalar_factor
      tolerancia_unicos.
Proof.
  intros H. unfold extraer_cuerpo, Image_open, check_random_state.
  now rewrite H.
Qed.

End ExtractionFacts.

(** The [Toy] clusterer returns as many centres as it is asked for. *)
Lemma Toy_kmeans_length (rs : RandomState) (n_clusters n_init : Z)
    (X : list Pixel) (cs : list Color) :
  Toy.kmeans rs n_clusters n_init X = inr cs ->
  Z.of_nat (List.length cs) = n_clusters.
Proof.
  unfold Toy.kmeans.
  destruct (n_clusters <? 1)%Z eqn:E1; [discriminate|].
  destruct (Z.of_nat (List.length X) <? n_clusters)%Z eqn:E2; [discriminate|].
  intros H. injection H as <-.
  apply Z.ltb_ge in E1, E2.
  rewrite length_map, length_firstn. unfold Toy.rotate.
  rewrite length_app, length_skipn, length_firstn. lia.
Qed.

(** * The claims *)



(** C2.  When the clusterer returns exactly [n_clusters] centres, as
    scikit-learn's does, a returned palette has at most [num_colores]
    colours; the filter never returns more colours than it is given. *)
Theorem palette_length_le_num_colores {L : Libraries} (w : World)
    (imagen_path : string) (num_colores : Z)
    (reescalar_factor tolerancia_unicos : Q) (out : list string)
    (palette : list Color) :
  (forall rs n_clusters n_init X cs,
     KMeans_fit rs n_clusters n_init X = inr cs ->
     Z.of_nat (List.length cs) = n_clusters) ->
  extraer_paleta_de_imagen w imagen_path num_colores reescalar_factor
    tolerancia_unicos = (out, Some palette) ->
  (Z.of_nat (List.length palette) <= num_colores)%Z /\
  forall centroids,
    (List.length (filtrar_colores_unicos centroids tolerancia_unicos)
     <= List.length centroids)%nat.
Proof.
  intros Hk Hex. split; [|apply filtrar_length].
  destruct (extraer_success _ _ _ _ _ Hex)
    as [_ [raw [img [pixels [cs [_ [_ [_ [Hfit ->]]]]]]]]].
  apply Hk in Hfit. rewrite <- Hfit.
  pose proof (filtrar_length tolerancia_unicos
                (map (fun c => row_div c 255) cs)) as Hlen.
  rewrite length_map in Hlen. lia.
Qed.

Lemma palette_length_le_num_colores_witness :
  (Z.of_nat
     (List.length [mkColor (0 / 255) (0 / 255) (0 / 255);
                   mkColor (255 / 255) (255 / 255) (255 / 255)]) <= 3)%Z.
Proof.
  exact (proj1
           (@palette_length_le_num_colores Toy.libraries
              (Toy.one_file "a.png" Toy.two_colours_2x2 7) "a.png" 3 1
              (5 # 100) [] _ Toy_kmeans_length eq_refl)).
Defined.


(** C4.  With a tolerance equal to zero no distance is below the tolerance,
    the filter returns its input unchanged, so a returned palette is the whole list of normalised centres
    and has as many colours as the clusterer returned centres. *)
Theorem zero_tolerance_keeps_every_centroid {L : Libraries} (w : World)
    (imagen_path : string) (num_colores : Z)
    (reescalar_factor tolerancia_unicos : Q) (out : list string)
    (palette : list Color) :
  tolerancia_unicos == 0 ->
  extraer_paleta_de_imagen w imagen_path num_colores reescalar_factor
    tolerancia_unicos = (out, Some palette) ->
  (forall distance, Norm_ltb distance tolerancia_unicos = false) /\
  (forall centroids,
     filtrar_colores_unicos centroids tolerancia_unicos = centroids) /\
  exists pixels cluster_centers_,
    KMeans_fit (Seeded 0) num_colores 10 pixels = inr cluster_centers_ /\
    palette = map (fun c => row_div c 255) cluster_centers_ /\
    List.length palette = List.length cluster_centers_.
Proof.
  intros Htol Hex.
  assert (Hid : forall centroids,
             filtrar_colores_unicos centroids tolerancia_unicos = centroids).
  { intros cs. unfold filtrar_colores_unicos.
    apply filtrar_loop_nonpos. rewrite Htol. apply Qle_refl. }
  split.
  { intros d. apply Norm_ltb_nonpos. rewrite Htol. apply Qle_refl. }
  split; [exact Hid|].
  destruct (extraer_success _ _ _ _ _ Hex)
    as [_ [raw [img [pixels [cs [_ [_ [_ [Hfit ->]]]]]]]]].
  exists pixels, cs. rewrite Hid, length_map. auto.
Qed.

Lemma zero_tolerance_keeps_every_centroid_witness :
  exists pixels cluster_centers_,
    Toy.kmeans (Seeded 0) 3 10 pixels = inr cluster_centers_ /\
    [mkColor (0 / 255) (0 / 255) (0 / 255);
     mkColor (255 / 255) (255 / 255) (255 / 255);
     mkColor (0 / 255) (0 / 255) (0 / 255)]
    = map (fun c => row_div c 255) cluster_centers_ /\
    List.length
      [mkColor (0 / 255) (0 / 255) (0 / 255);
       mkColor (255 / 255) (255 / 255) (255 / 255);
       mkColor (0 / 255) (0 / 255) (0 / 255)]
    = List.length cluster_centers_.
Proof.
  exact (proj2 (proj2
           (@zero_tolerance_keeps_every_centroid Toy.libraries
              (Toy.one_file "a.png" Toy.two_colours_2x2 7) "a.png" 3 1 0
              [] _ (Qeq_refl 0) eq_refl))).
Defined.

(** C5.  Two calls that find the same bytes at the path and get the same
    configuration print the same lines and return the same palette, whatever
    else differs between the two worlds (other files, the state of numpy's
    process-wide random generator): the clusterer is always handed a fresh
    generator seeded with 0. *)
Theorem extraction_is_deterministic {L : Libraries} (w1 w2 : World)
    (imagen_path : string) (num_colores : Z)
    (reescalar_factor tolerancia_unicos : Q) :
  fs w1 imagen_path = fs w2 imagen_path ->
  extraer_paleta_de_imagen w1 imagen_path num_colores reescalar_factor
    tolerancia_unicos
  = extraer_paleta_de_imagen w2 imagen_path num_colores reescalar_factor
      tolerancia_unicos.
Proof.
  intros H. unfold extraer_paleta_de_imagen.
  now rewrite (extraer_cuerpo_world _ _ _ _ _ _ H).
Qed.

Lemma extraction_is_deterministic_witness :
  extraer_paleta_de_imagen (L := Toy.libraries)
    (Toy.one_file "a.png" Toy.two_colours_2x2 1) "a.png" 3 1 (5 # 100)
  = extraer_paleta_de_imagen (L := Toy.libraries)
      (Toy.one_file "a.png" Toy.two_colours_2x2 2) "a.png" 3 1 (5 # 100).
Proof.
  exact (@extraction_is_deterministic Toy.libraries
           (Toy.one_file "a.png" Toy.two_colours_2x2 1)
           (Toy.one_file "a.png" Toy.two_colours_2x2 2)
           "a.png" 3 1 (5 # 100) eq_refl).
Defined.

(** C10.  On a list of centroids that is not empty the filter returns a list
    that is not empty and starts with the first centroid, whatever the
    tolerance.  Hence a call whose clusterer returned at least one centre
    returns a palette that is not empty and starts with the first centre,
    normalised. *)
Theorem first_centroid_is_always_accepted {L : Libraries}
    (centroids : list Color) (tolerance : Q) :
  centroids <> [] ->
  (filtrar_colores_unicos centroids tolerance <> [] /\
   hd_error (filtrar_colores_unicos centroids tolerance)
   = hd_error centroids) /\
  forall w imagen_path num_colores reescalar_factor out palette,
    extraer_paleta_de_imagen w imagen_path num_colores reescalar_factor
      tolerance = (out, Some palette) ->
    exists pixels cluster_centers_,
      KMeans_fit (Seeded 0) num_colores 10 pixels = inr cluster_centers_ /\
      (cluster_centers_ <> [] ->
       palette <> [] /\
       hd_error palette
       = hd_error (map (fun c => row_div c 255) cluster_centers_)).
Proof.
  assert (Hfirst : forall cs : list Color, cs <> [] ->
            filtrar_colores_unicos cs tolerance <> [] /\
            hd_error (filtrar_colores_unicos cs tolerance) = hd_error cs).
  { intros [|c cs] Hne; [contradiction|].
    destruct (filtrar_first tolerance c cs) as [rest ->].
    split; [discriminate | reflexivity]. }
  intros Hne. split; [now apply Hfirst|].
  intros w imagen_path num_colores reescalar_factor out palette Hex.
  destruct (extraer_success _ _ _ _ _ Hex)
    as [_ [raw [img [pixels [cs [_ [_ [_ [Hfit ->]]]]]]]]].
  exists pixels, cs. split; [assumption|].
  intros Hcs. apply Hfirst. destruct cs; [contradiction | discriminate].
Qed.

Lemma first_centroid_is_always_accepted_witness :
  filtrar_colores_unicos [mkColor 1 0 0; mkColor 1 0 0; mkColor 0 0 1] 2
  <> [] /\
  hd_error
    (filtrar_colores_unicos [mkColor 1 0 0; mkColor 1 0 0; mkColor 0 0 1] 2)
  = hd_error [mkColor 1 0 0; mkColor 1 0 0; mkColor 0 0 1].
Proof.
  refine (proj1
            (@first_centroid_is_always_accepted Toy.libraries
               [mkColor 1 0 0; mkColor 1 0 0; mkColor 0 0 1] 2 _)).
  discriminate.
Defined.






(** C8 as the specification states it fails: asking for ten colours of an
    image of two pixels makes the clusterer raise, and the call returns
    [None], the value it returns when the file is missing; asking for three
    colours of an image of four pixels in two colours fails in no way and
    returns the two colours. *)
Lemma too_few_colours_is_no_error_of_its_own :
  extraer_paleta_de_imagen (L := Toy.libraries)
    (Toy.one_file "a.png" Toy.black_white 0) "a.png" 10 1 (5 # 100)
  = (["Error al procesar la imagen: n_samples=2 should be >= n_clusters=10."],
     None) /\
  snd (extraer_paleta_de_imagen (L := Toy.libraries)
         (Toy.one_file "a.png" Toy.black_white 0) "a.png" 10 1 (5 # 100))
  = snd (extraer_paleta_de_imagen (L := Toy.libraries) Toy.no_file "a.png"
           10 1 (5 # 100)) /\
  extraer_paleta_de_imagen (L := Toy.libraries)
    (Toy.one_file "a.png" Toy.two_colours_2x2 0) "a.png" 3 1 (5 # 100)
  = ([], Some [mkColor (0 / 255) (0 / 255) (0 / 255);
               mkColor (255 / 255) (255 / 255) (255 / 255)]).
Proof. repeat split. Qed.

(** C8, amended.  The code compares nothing with the number of distinct
    samples: once the image is decoded and sampled, the outcome is the
    clusterer's.  When the clusterer raises, the call returns [None], as for
    every other failure; when it returns centres, the call succeeds with
    their filtered, normalised list. *)
Theorem clusterer_alone_decides_the_outcome {L : Libraries} (w : World)
    (imagen_path : string) (num_colores : Z)
    (reescalar_factor tolerancia_unicos : Q) (raw : RawImage) (img : Image)
    (pixels : list Pixel) :
  Image_open w imagen_path = inr raw ->
  PIL_convert_RGB raw = inr img ->
  muestrear img reescalar_factor = inr pixels ->
  match KMeans_fit (Seeded 0) num_colores 10 pixels with
  | inl e =>
      snd (extraer_paleta_de_imagen w imagen_path num_colores
             reescalar_factor tolerancia_unicos) = None
  | inr cluster_centers_ =>
      extraer_paleta_de_imagen w imagen_path num_colores reescalar_factor
        tolerancia_unicos
      = ([], Some (filtrar_colores_unicos
                     (map (fun c => row_div c 255) cluster_centers_)
                     tolerancia_unicos))
  end.
Proof.
  intros H1 H2 H3.
  unfold extraer_paleta_de_imagen, extraer_cuerpo, check_random_state.
  rewrite H1. cbn. rewrite H2. cbn. rewrite H3. cbn.
  destruct (KMeans_fit (Seeded 0) num_colores 10 pixels) as [e|cs]; cbn;
    [now destruct e | reflexivity].
Qed.

Lemma clusterer_alone_decides_the_outcome_witness :
  snd (extraer_paleta_de_imagen (L := Toy.libraries)
         (Toy.one_file "a.png" Toy.black_white 0) "a.png" 10 1 (5 # 100))
  = None.
Proof.
  exact (@clusterer_alone_decides_the_outcome Toy.libraries
           (Toy.one_file "a.png" Toy.black_white 0) "a.png" 10 1 (5 # 100)
           (mkImage (2, 1)%Z [[(0, 0, 0); (255, 255, 255)]]%Z)
           (mkImage (2, 1)%Z [[(0, 0, 0); (255, 255, 255)]]%Z)
           [(0, 0, 0); (255, 255, 255)]%Z eq_refl eq_refl eq_refl).
Defined.

(** ** The cleanup *)

Lemma NoDup_map_inj {A B : Type} (f : A -> B) (l : list A) (a b : A) :
  NoDup (map f l) -> In a l -> In b l -> f a = f b -> a = b.
Proof.
  induction l as [|x l IH]; cbn; intros Hnd Ha Hb Hf; [contradiction|].
  inversion Hnd as [|y ys Hnotin Hnd']; subst.
  destruct Ha as [->|Ha], Hb as [->|Hb]; auto.
  - exfalso. apply Hnotin. rewrite Hf. now apply in_map.
  - exfalso. apply Hnotin. rewrite <- Hf. now apply in_map.
Qed.

(** Removing materials one after the other leaves those whose name is not
    the name of an unused material of the list. *)
Lemma fold_materials_remove (rs : list Material) (b : Blender) :
  let b' :=
    fold_left
      (fun acc mat =>
         if (users mat =? 0)%nat then materials_remove acc mat else acc)
      rs b in
  materials b'
  = filter
      (fun m =>
         negb (existsb
                 (fun r => (users r =? 0)%nat &&
                           String.eqb (mat_name m) (mat_name r)) rs))
      (materials b) /\
  meshes b' = meshes b /\ objects b' = objects b /\
  active_object b' = active_object b /\ settings b' = settings b /\
  mode b' = mode b.
Proof.
  cbn zeta. revert b. induction rs as [|r rs IH]; intros b; cbn.
  - repeat split. induction (materials b) as [|m ms IHm]; cbn; congruence.
  - destruct (IH (if (users r =? 0)%nat then materials_remove b r else b))
      as [Hm [Hme [Ho [Ha [Hs Hmo]]]]].
    rewrite Hm, Hme, Ho, Ha, Hs, Hmo.
    destruct (users r =? 0)%nat; cbn; repeat split.
    + induction (materials b) as [|m ms IHm]; cbn; [reflexivity|].
      destruct (String.eqb (mat_name m) (mat_name r)); cbn.
      * exact IHm.
      * destruct (existsb _ rs); cbn; [exact IHm | now rewrite IHm].
Qed.

Lemma fold_objects_remove (rs : list Object) (b : Blender) :
  let b' := fold_left (fun acc obj => objects_remove acc obj) rs b in
  objects b'
  = filter
      (fun o =>
         negb (existsb (fun r => String.eqb (obj_name o) (obj_name r)) rs))
      (objects b) /\
  materials b' = materials b /\ meshes b' = meshes b.
Proof.
  cbn zeta. revert b. induction rs as [|r rs IH]; intros b; cbn.
  - repeat split. induction (objects b) as [|o os IHo]; cbn; congruence.
  - destruct (IH (objects_remove b r)) as [Ho [Hm Hme]].
    rewrite Ho, Hm, Hme.
    assert (Hfr : objects (objects_remove b r)
                  = filter (fun o => negb (String.eqb (obj_name o) (obj_name r)))
                      (objects b) /\
                  materials (objects_remove b r) = materials b /\
                  meshes (objects_remove b r) = meshes b).
    { unfold objects_remove. destruct (active_object b) as [a|];
        [destruct (String.eqb a (obj_name r))|]; cbn; auto. }
    destruct Hfr as [-> [-> ->]]. repeat split.
    induction (objects b) as [|o os IHo]; cbn; [reflexivity|].
    destruct (String.eqb (obj_name o) (obj_name r)); cbn.
    + exact IHo.
    + destruct (existsb _ rs); cbn; [exact IHo | now rewrite IHo].
Qed.

(** C9 as the specification states it fails: the operator run twice on the
    same image with the same prefix, spheres on, leaves four materials with
    the prefix for a palette of two colours: those of the first run are in
    use when the second run cleans up, and are kept. *)
Lemma second_run_keeps_the_materials_of_the_first :
  (o1 <- execute (L := Toy.libraries)
           (Toy.one_file "a.png" Toy.black_white 0) "a.png"
           Toy.blender_two_colours ;;
   o2 <- execute (L := Toy.libraries)
           (Toy.one_file "a.png" Toy.black_white 0) "a.png" (blender o1) ;;
   ret (map mat_name (materials (blender o1)),
        map mat_name (materials (blender o2)),
        map obj_name (objects (blender o2))))
  = inr (["Paleta_00"; "Paleta_01"],
         ["Paleta_00"; "Paleta_01"; "Paleta_00.001"; "Paleta_01.001"],
         ["Paleta_00"; "Paleta_01"]).
Proof. vm_compute. reflexivity. Qed.

(** C9, amended.  The cleanup removes every object whose name starts with
    the default prefix or with the prefix of the settings (or contains
    "Color_Referencia_"), and every material with one of these prefixes
    that has no user; a material that has users is kept, whatever its name;
    meshes are left alone. *)
Theorem limpiar_removes_objects_and_unused_materials (b : Blender) :
  NoDup (map mat_name (materials b)) ->
  let prefixed name :=
    startswith name PREFIJO_NOMBRE_DEFAULT ||
    startswith name (prefijo_nombre (settings b)) in
  materials (limpiar_materiales_paleta b)
  = filter (fun m => negb (prefixed (mat_name m) && (users m =? 0)%nat))
      (materials b) /\
  objects (limpiar_materiales_paleta b)
  = filter
      (fun o =>
         negb (prefixed (obj_name o) ||
               contains "Color_Referencia_" (obj_name o)))
      (objects b) /\
  meshes (limpiar_materiales_paleta b) = meshes b /\
  (forall m, In m (materials b) -> users m <> O ->
     In m (materials (limpiar_materiales_paleta b))) /\
  (forall o, In o (objects (limpiar_materiales_paleta b)) ->
     prefixed (obj_name o) = false).
Proof.
  intros Hnd. cbn zeta.
  set (P := fun name : string =>
              startswith name PREFIJO_NOMBRE_DEFAULT ||
              startswith name (prefijo_nombre (settings b))).
  assert (Hmat : materials (limpiar_materiales_paleta b)
                 = filter (fun m => negb (P (mat_name m) && (users m =? 0)%nat))
                     (materials b)).
  { unfold limpiar_materiales_paleta.
    match goal with
    | |- materials (fold_left ?f ?rs ?b1) = _ =>
        destruct (fold_objects_remove rs b1) as [_ [-> _]]
    end.
    match goal with
    | |- materials (fold_left ?f ?rs b) = _ =>
        destruct (fold_materials_remove rs b) as [-> _]
    end.
    apply filter_ext_in. intros m Hm. f_equal.
    fold (P (mat_name m)).
    destruct (P (mat_name m) && (users m =? 0)%nat) eqn:E.
    - apply andb_true_iff in E as [EP EU].
      apply existsb_exists. exists m. split.
      + apply filter_In. split; [assumption | exact EP].
      + now rewrite EU, String.eqb_refl.
    - apply not_true_iff_false. intros Hex.
      apply existsb_exists in Hex as [r [Hr Hru]].
      apply filter_In in Hr as [Hr HPr].
      apply andb_true_iff in Hru as [Hu Hn].
      apply String.eqb_eq in Hn.
      assert (m = r) by (eapply NoDup_map_inj; eassumption). subst r.
      fold (P (mat_name m)) in HPr. now rewrite HPr, Hu in E. }
  assert (Hobj : objects (limpiar_materiales_paleta b)
                 = filter
                     (fun o =>
                        negb (P (obj_name o) ||
                              contains "Color_Referencia_" (obj_name o)))
                     (objects b)).
  { unfold limpiar_materiales_paleta.
    match goal with
    | |- objects (fold_left ?f (filter ?q (objects ?b1)) ?b1) = _ =>
        destruct (fold_objects_remove (filter q (objects b1)) b1)
          as [-> _];
        assert (Hb1 : objects b1 = objects b /\ settings b1 = settings b)
    end.
    { match goal with
      | |- objects (fold_left ?f ?rs b) = _ /\ _ =>
          destruct (fold_materials_remove rs b) as [_ [_ [Ho [_ [Hs _]]]]]
      end.
      split; assumption. }
    destruct Hb1 as [-> _].
    apply filter_ext_in. intros o Ho. f_equal.
    fold (P (obj_name o)).
    destruct (P (obj_name o) || contains "Color_Referencia_" (obj_name o))
      eqn:E.
    - apply existsb_exists. exists o. split.
      + apply filter_In. split; [assumption | exact E].
      + apply String.eqb_refl.
    - apply not_true_iff_false. intros Hex.
      apply existsb_exists in Hex as [r [Hr Hn]].
      apply filter_In in Hr as [_ HPr].
      apply String.eqb_eq in Hn. rewrite <- Hn in HPr.
      fold (P (obj_name o)) in HPr. now rewrite HPr in E. }
  repeat split.
  - exact Hmat.
  - exact Hobj.
  - unfold limpiar_materiales_paleta.
    match goal with
    | |- meshes (fold_left ?f ?rs ?b1) = _ =>
        destruct (fold_objects_remove rs b1) as [_ [_ ->]]
    end.
    match goal with
    | |- meshes (fold_left ?f ?rs b) = _ =>
        destruct (fold_materials_remove rs b) as [_ [-> _]]
    end.
    reflexivity.
  - intros m Hm Hu. rewrite Hmat. apply filter_In. split; [assumption|].
    apply Nat.eqb_neq in Hu. now rewrite Hu, andb_false_r.
  - intros o Ho. rewrite Hobj in Ho. apply filter_In in Ho as [_ Ho].
    apply negb_true_iff, orb_false_iff in Ho. apply Ho.
Qed.

Lemma limpiar_removes_objects_and_unused_materials_witness :
  materials (limpiar_materiales_paleta Toy.blender_after_a_run)
  = filter
      (fun m =>
         negb ((startswith (mat_name m) PREFIJO_NOMBRE_DEFAULT ||
                startswith (mat_name m)
                  (prefijo_nombre (settings Toy.blender_after_a_run))) &&
               (users m =? 0)%nat))
      (materials Toy.blender_after_a_run).
Proof.
  refine (proj1
            (@limpiar_removes_objects_and_unused_materials
               Toy.blender_after_a_run _)).
  repeat constructor; cbn; intuition discriminate.
Defined.

(** * Further properties of the code *)

(** ** The filter, continued *)

Lemma ForallOrdPairs_app_mid {A : Type} (R : A -> A -> Prop)
    (l1 l2 : list A) (x : A) :
  ForallOrdPairs R (l1 ++ x :: l2) -> Forall (fun a => R a x) l1.
Proof.
  induction l1 as [|a l1 IH]; cbn; intros H; [constructor|].
  inversion H as [|? ? Ha Hl]; subst. constructor.
  - rewrite Forall_forall in Ha. apply Ha, in_or_app. right. now left.
  - now apply IH.
Qed.

Lemma is_unique_loop_Forall (tol : Q) (c : Color) (acc : list Color) :
  Forall (fun e => Norm_ltb (linalg_norm (row_sub c e)) tol = false) acc ->
  is_unique_loop c acc tol = true.
Proof.
  induction 1 as [|e acc He _ IH]; cbn; [reflexivity|].
  now rewrite He.
Qed.

(** On candidates that are pairwise apart, and apart from what is already
    accepted, the loop accepts everything. *)
Lemma filtrar_loop_all_apart (tol : Q) (l acc : list Color) :
  ForallOrdPairs
    (fun a b => Norm_ltb (linalg_norm (row_sub b a)) tol = false)
    (acc ++ l) ->
  filtrar_loop l acc tol = acc ++ l.
Proof.
  revert acc. induction l as [|c l IH]; intros acc H; cbn.
  - now rewrite app_nil_r.
  - rewrite (is_unique_loop_Forall _ _ (ForallOrdPairs_app_mid _ _ _ H)).
    rewrite IH; rewrite <- app_assoc; [reflexivity | exact H].
Qed.


(** X1.  Filtering twice is filtering once: a palette goes through the
    filter unchanged under the tolerance it was made with. *)
Theorem filtrar_is_idempotent (centroids : list Color) (tolerance : Q) :
  filtrar_colores_unicos (filtrar_colores_unicos centroids tolerance)
    tolerance
  = filtrar_colores_unicos centroids tolerance.
Proof.
  unfold filtrar_colores_unicos at 1.
  apply (filtrar_loop_all_apart tolerance _ []). cbn.
  apply filtrar_apart.
Qed.



(** ** The extraction, continued *)

Lemma row_div_255_unit (c : Color) :
  (0 <= red c <= 255 /\ 0 <= green c <= 255 /\ 0 <= blue c <= 255) ->
  let n := row_div c 255 in
  (0 <= red n <= 1 /\ 0 <= green n <= 1 /\ 0 <= blue n <= 1).
Proof.
  assert (H : forall x : Q, 0 <= x <= 255 -> 0 <= x / 255 <= 1).
  { intros x [H0 H1]. split.
    - apply Qle_shift_div_l; [reflexivity|]. now rewrite Qmult_0_l.
    - apply Qle_shift_div_r; [reflexivity|]. now rewrite Qmult_1_l. }
  intros [Hr [Hg Hb]]. cbn. auto.
Qed.

(** X3.  A returned palette is made of the clusterer's centres divided by
    255; hence, when the centres lie in the range of the samples, 0 to 255
    per channel, every colour of the palette has its three channels between
    0 and 1. *)
Theorem palette_channels_are_normalised {L : Libraries} (w : World)
    (imagen_path : string) (num_colores : Z)
    (reescalar_factor tolerancia_unicos : Q) (out : list string)
    (palette : list Color) :
  extraer_paleta_de_imagen w imagen_path num_colores reescalar_factor
    tolerancia_unicos = (out, Some palette) ->
  exists pixels cluster_centers_,
    KMeans_fit (Seeded 0) num_colores 10 pixels = inr cluster_centers_ /\
    (forall c, In c palette ->
       exists centre, In centre cluster_centers_ /\ c = row_div centre 255) /\
    ((forall centre, In centre cluster_centers_ ->
        0 <= red centre <= 255 /\ 0 <= green centre <= 255 /\
        0 <= blue centre <= 255) ->
     forall c, In c palette ->
       0 <= red c <= 1 /\ 0 <= green c <= 1 /\ 0 <= blue c <= 1).
Proof.
  intros Hex.
  destruct (extraer_success _ _ _ _ _ Hex)
    as [_ [raw [img [pixels [cs [_ [_ [_ [Hfit ->]]]]]]]]].
  exists pixels, cs. split; [assumption|].
  assert (Hfrom : forall c,
            In c (filtrar_colores_unicos
                    (map (fun c => row_div c 255) cs) tolerancia_unicos) ->
            exists centre, In centre cs /\ c = row_div centre 255).
  { intros c Hc.
    apply (@Subsequence_In _ _ _ c (filtrar_Subsequence tolerancia_unicos _)) in Hc.
    apply in_map_iff in Hc as [centre [<- Hin]]. eauto. }
  split; [exact Hfrom|].
  intros Hrange c Hc. destruct (Hfrom c Hc) as [centre [Hin ->]].
  apply row_div_255_unit. auto.
Qed.

Lemma palette_channels_are_normalised_witness :
  exists pixels cluster_centers_,
    KMeans_fit (Libraries := Toy.libraries) (Seeded 0) 2 10 pixels
    = inr cluster_centers_ /\
    (forall c,
       In c [mkColor (0 / 255) (0 / 255) (0 / 255);
             mkColor (255 / 255) (255 / 255) (255 / 255)] ->
       exists centre, In centre cluster_centers_ /\ c = row_div centre 255) /\
    ((forall centre, In centre cluster_centers_ ->
        0 <= red centre <= 255 /\ 0 <= green centre <= 255 /\
        0 <= blue centre <= 255) ->
     forall c,
       In c [mkColor (0 / 255) (0 / 255) (0 / 255);
             mkColor (255 / 255) (255 / 255) (255 / 255)] ->
       0 <= red c <= 1 /\ 0 <= green c <= 1 /\ 0 <= blue c <= 1).
Proof.
  exact (@palette_channels_are_normalised Toy.libraries
           (Toy.one_file "a.png" Toy.black_white 7) "a.png" 2 1 (5 # 100)
           [] _ eq_refl).
Defined.

(** X4.  A factor that is not strictly between 0 and 1 means no resizing:
    whatever the libraries do, the samples are the pixels of the image as
    decoded, row after row, and the sampling cannot fail. *)
Theorem no_rescaling_outside_the_open_unit_interval {L : Libraries}
    (img : Image) (reescalar_factor : Q) :
  reescalar_factor <= 0 \/ 1 <= reescalar_factor ->
  muestrear img reescalar_factor = inr (List.concat (np_array img)).
Proof.
  intros H. unfold muestrear.
  assert (E : Qltb 0 reescalar_factor && Qltb reescalar_factor 1 = false).
  { destruct H as [H|H]; apply Qltb_ge in H; rewrite H;
      [reflexivity | apply andb_false_r]. }
  now rewrite E.
Qed.

Lemma no_rescaling_outside_the_open_unit_interval_witness :
  muestrear (L := Toy.libraries)
    (mkImage (2, 1)%Z [[(0, 0, 0); (255, 255, 255)]]%Z) 1
  = inr [(0, 0, 0); (255, 255, 255)]%Z.
Proof.
  refine (@no_rescaling_outside_the_open_unit_interval Toy.libraries
            (mkImage (2, 1)%Z [[(0, 0, 0); (255, 255, 255)]]%Z) 1 _).
  right. discriminate.
Defined.




(** ** Names *)

Lemma parse_zero_prefixed (s : string) (n : nat) :
  option_map Nat.of_uint (DecimalString.NilEmpty.uint_of_string s) = Some n ->
  option_map Nat.of_uint
    (DecimalString.NilEmpty.uint_of_string (String "0" s)) = Some n.
Proof.
  cbn. destruct (DecimalString.NilEmpty.uint_of_string s) as [d|]; cbn;
    [|discriminate].
  intros H. exact H.
Qed.

Lemma parse_str_of_nat (n : nat) :
  option_map Nat.of_uint
    (DecimalString.NilEmpty.uint_of_string (str_of_nat n)) = Some n.
Proof.
  unfold str_of_nat, DecimalString.NilZero.string_of_uint.
  destruct (Nat.to_uint n) eqn:E;
    try (rewrite <- E, DecimalString.NilEmpty.usu; cbn;
         now rewrite DecimalNat.Unsigned.of_to).
  cbn. f_equal.
  rewrite <- (DecimalNat.Unsigned.of_to n), E. reflexivity.
Qed.

Lemma parse_fmt_02d (i : nat) :
  option_map Nat.of_uint
    (DecimalString.NilEmpty.uint_of_string (fmt_02d i)) = Some i.
Proof.
  unfold fmt_02d. destruct (i <? 10)%nat.
  - apply parse_zero_prefixed, parse_str_of_nat.
  - apply parse_str_of_nat.
Qed.

Lemma string_app_inv_head (p s1 s2 : string) :
  (p ++ s1)%string = (p ++ s2)%string -> s1 = s2.
Proof.
  induction p as [|c p IH]; cbn; intros H; [exact H|].
  injection H as H. auto.
Qed.

Lemma fmt_02d_inj (prefijo : string) (i j : nat) :
  (prefijo ++ fmt_02d i)%string = (prefijo ++ fmt_02d j)%string -> i = j.
Proof.
  intros H. apply string_app_inv_head in H.
  pose proof (parse_fmt_02d i) as Hi. rewrite H, parse_fmt_02d in Hi.
  congruence.
Qed.

(** X6.  The index printed by [{i:02d}] reads back as [i]; so the names the
    add-on asks for within one run differ from one index to the next. *)
Theorem fmt_02d_reads_back (i : nat) :
  option_map Nat.of_uint
    (DecimalString.NilEmpty.uint_of_string (fmt_02d i)) = Some i /\
  forall j prefijo,
    (prefijo ++ fmt_02d i)%string = (prefijo ++ fmt_02d j)%string -> i = j.
Proof.
  split; [apply parse_fmt_02d|].
  intros j prefijo. apply fmt_02d_inj.
Qed.






(** ** Materials *)







(** ** The cleanup, continued *)

Lemma fold_objects_remove_frame (rs : list Object) (b : Blender) :
  settings (fold_left (fun acc obj => objects_remove acc obj) rs b)
  = settings b /\
  mode (fold_left (fun acc obj => objects_remove acc obj) rs b) = mode b.
Proof.
  revert b. induction rs as [|r rs IH]; intros b; cbn; [auto|].
  destruct (IH (objects_remove b r)) as [-> ->].
  unfold objects_remove. destruct (active_object b) as [a|];
    [destruct (String.eqb a (obj_name r))|]; cbn; auto.
Qed.

Lemma fold_materials_remove_noop (rs : list Material) (b : Blender) :
  Forall (fun m => users m <> O) rs ->
  fold_left
    (fun acc mat =>
       if (users mat =? 0)%nat then materials_remove acc mat else acc)
    rs b = b.
Proof.
  induction 1 as [|r rs Hr _ IH]; cbn; [reflexivity|].
  apply Nat.eqb_neq in Hr. now rewrite Hr.
Qed.

Lemma filter_filter_negb {A : Type} (f : A -> bool) (l : list A) :
  filter f (filter (fun x => negb (f x)) l) = [].
Proof.
  induction l as [|x l IH]; cbn; [reflexivity|].
  destruct (f x) eqn:E; cbn; [exact IH | now rewrite E].
Qed.

(** What the cleanup leaves of the objects, of the settings, of the
    meshes. *)
Lemma limpiar_objects_eq (b : Blender) :
  objects (limpiar_materiales_paleta b)
  = filter
      (fun o =>
         negb (startswith (obj_name o) PREFIJO_NOMBRE_DEFAULT ||
               startswith (obj_name o) (prefijo_nombre (settings b)) ||
               contains "Color_Referencia_" (obj_name o)))
      (objects b) /\
  settings (limpiar_materiales_paleta b) = settings b /\
  mode (limpiar_materiales_paleta b) = mode b /\
  meshes (limpiar_materiales_paleta b) = meshes b.
Proof.
  unfold limpiar_materiales_paleta.
  match goal with
  | |- objects (fold_left ?f (filter ?q (objects ?b1)) ?b1) = _ /\ _ =>
      destruct (fold_objects_remove (filter q (objects b1)) b1)
        as [-> [_ ->]];
      destruct (fold_objects_remove_frame (filter q (objects b1)) b1)
        as [-> ->];
      assert (Hb1 : objects b1 = objects b /\ settings b1 = settings b /\
                    mode b1 = mode b /\ meshes b1 = meshes b)
  end.
  { match goal with
    | |- objects (fold_left ?f ?rs b) = _ /\ _ =>
        destruct (fold_materials_remove rs b)
          as [_ [Hme [Ho [_ [Hs Hmo]]]]]
    end.
    auto. }
  destruct Hb1 as [-> [-> [-> ->]]]. repeat split.
  apply filter_ext_in. intros o Ho. f_equal.
  match goal with
  | |- existsb _ (filter ?q _) = _ => destruct (q o) eqn:E
  end.
  - apply existsb_exists. exists o. split.
    + apply filter_In. split; [assumption | exact E].
    + apply String.eqb_refl.
  - apply not_true_iff_false. intros Hex.
    apply existsb_exists in Hex as [r [Hr Hn]].
    apply filter_In in Hr as [_ HPr].
    apply String.eqb_eq in Hn. rewrite <- Hn in HPr. congruence.
Qed.

(** What the cleanup leaves of the materials: those that do not share their
    name with an unused material bearing one of the prefixes. *)
Lemma limpiar_materials_eq (b : Blender) :
  materials (limpiar_materiales_paleta b)
  = filter
      (fun m =>
         negb (existsb
                 (fun r => (users r =? 0)%nat &&
                           String.eqb (mat_name m) (mat_name r))
                 (filter
                    (fun mat =>
                       startswith (mat_name mat) PREFIJO_NOMBRE_DEFAULT ||
                       startswith (mat_name mat)
                         (prefijo_nombre (settings b)))
                    (materials b))))
      (materials b).
Proof.
  unfold limpiar_materiales_paleta.
  match goal with
  | |- materials (fold_left ?f ?rs ?b1) = _ =>
      destruct (fold_objects_remove rs b1) as [_ [-> _]]
  end.
  match goal with
  | |- materials (fold_left ?f ?rs b) = _ =>
      destruct (fold_materials_remove rs b) as [-> _]
  end.
  reflexivity.
Qed.

(** No unused material with one of the prefixes survives the cleanup. *)
Lemma limpiar_materials_left (b : Blender) (m : Material) :
  In m (materials (limpiar_materiales_paleta b)) ->
  In m (materials b) /\
  (startswith (mat_name m) PREFIJO_NOMBRE_DEFAULT ||
   startswith (mat_name m) (prefijo_nombre (settings b)) = true ->
   users m <> O).
Proof.
  rewrite limpiar_materials_eq. intros H.
  apply filter_In in H as [Hin H]. split; [assumption|].
  intros HP Hu. apply negb_true_iff, not_true_iff_false in H. apply H.
  apply existsb_exists. exists m. split.
  - apply filter_In. split; assumption.
  - now rewrite Hu, String.eqb_refl.
Qed.

(** X8.  Cleaning up twice is cleaning up once: after a cleanup, a second
    one finds nothing to remove and leaves Blender exactly as it is. *)
Theorem limpiar_is_idempotent (b : Blender) :
  limpiar_materiales_paleta (limpiar_materiales_paleta b)
  = limpiar_materiales_paleta b.
Proof.
  set (b' := limpiar_materiales_paleta b).
  destruct (limpiar_objects_eq b) as [Ho [Hs _]]. fold b' in Ho, Hs.
  unfold limpiar_materiales_paleta at 1.
  rewrite fold_materials_remove_noop.
  - rewrite Hs, Ho, filter_filter_negb. reflexivity.
  - apply Forall_forall. intros m Hm. apply filter_In in Hm as [Hm HP].
    rewrite Hs in HP.
    exact (proj2 (limpiar_materials_left b m Hm) HP).
Qed.

(** X9.  With an empty prefix in the settings every name matches: the
    cleanup removes every object of the file, and every material that is
    left has users. *)
Theorem limpiar_with_empty_prefix_removes_every_object (b : Blender) :
  prefijo_nombre (settings b) = "" ->
  objects (limpiar_materiales_paleta b) = [] /\
  forall m, In m (materials (limpiar_materiales_paleta b)) -> users m <> O.
Proof.
  intros Hp. split.
  - destruct (limpiar_objects_eq b) as [-> _]. rewrite Hp.
    induction (objects b) as [|o os IH]; cbn; [reflexivity|].
    unfold startswith at 2. 
    replace (String.prefix "" (obj_name o)) with true
      by (now destruct (obj_name o)).
    rewrite orb_true_r. cbn. exact IH.
  - intros m Hm. apply (limpiar_materials_left b m Hm).
    rewrite Hp. unfold startswith at 2.
    replace (String.prefix "" (mat_name m)) with true
      by (now destruct (mat_name m)).
    apply orb_true_r.
Qed.

Lemma limpiar_with_empty_prefix_removes_every_object_witness :
  objects
    (limpiar_materiales_paleta
       (mkBlender
          [mkMaterial "Material" 0 false (8 # 10, 8 # 10, 8 # 10, 1);
           mkMaterial "Skin" 1 false (1, 0, 0, 1)]
          [mkMesh "Cube" ["Skin"]]
          [mkObject "Cube" "Cube" 0; mkObject "Camera" "Camera" 0]
          OBJECT (Some "Cube")
          (mkSettings 8 true (3 # 10) "" (5 # 100))))
  = [].
Proof.
  exact (proj1
           (@limpiar_with_empty_prefix_removes_every_object
              (mkBlender
                 [mkMaterial "Material" 0 false (8 # 10, 8 # 10, 8 # 10, 1);
                  mkMaterial "Skin" 1 false (1, 0, 0, 1)]
                 [mkMesh "Cube" ["Skin"]]
                 [mkObject "Cube" "Cube" 0; mkObject "Camera" "Camera" 0]
                 OBJECT (Some "Cube")
                 (mkSettings 8 true (3 # 10) "" (5 # 100)))
              eq_refl)).
Defined.

(** ** The operator *)




Section OperatorFacts.

Context {L : Libraries}.


End OperatorFacts.





Section OperatorCancel.

Context {L : Libraries}.

(** X11.  A run that gets no colours is cancelled and raises nothing, but
    only after the cleanup: when the path is not empty and the extraction
    returns [None] or an empty list, the operator reports the error, returns
    CANCELLED, and leaves Blender as the cleanup made it, the objects of
    the previous palette removed.  With an empty path it is cancelled
    before anything is touched. *)
Theorem execute_cancels_after_the_cleanup (w : World) (filepath : string)
    (b : Blender) (out : list string) (colores : option (list Color)) :
  filepath <> "" ->
  extraer_paleta_de_imagen w filepath (num_colores_paleta (settings b))
    (reescalar_imagen_procesamiento (settings b))
    (tolerancia_color_unicos (settings b)) = (out, colores) ->
  colores = None \/ colores = Some [] ->
  execute w filepath b
  = inr (mkOutcome (limpiar_materiales_paleta b)
           [(INFO, "Procesando imagen: " ++ filepath)%string;
            (ERROR,
             "No se pudieron extraer colores de la imagen. Verifica la ruta o el archivo.")]
           out CANCELLED) /\
  execute w "" b
  = inr (mkOutcome b
           [(ERROR, "Por favor, selecciona una imagen primero.")] []
           CANCELLED).
Proof.
  intros Hfp Hex Hfail. split; [|reflexivity].
  unfold execute. apply String.eqb_neq in Hfp. rewrite Hfp, Hex.
  destruct Hfail as [->| ->]; reflexivity.
Qed.

(** X12.  The operator returns FINISHED only for a path that is not empty
    and a palette that is not empty, after an extraction that printed
    nothing; its second report then gives the number of colours of that
    palette. *)
Theorem execute_finished_means_colours (w : World) (filepath : string)
    (b : Blender) (o : Outcome) :
  execute w filepath b = inr o ->
  result o = FINISHED ->
  filepath <> "" /\
  exists palette,
    palette <> [] /\
    extraer_paleta_de_imagen w filepath (num_colores_paleta (settings b))
      (reescalar_imagen_procesamiento (settings b))
      (tolerancia_color_unicos (settings b)) = ([], Some palette) /\
    printed o = [] /\
    reports o
    = [(INFO, "Procesando imagen: " ++ filepath)%string;
       (INFO,
        ("Paleta de " ++ str_of_nat (List.length palette) ++
         (if crear_objetos_referencia (settings b)
          then " colores únicos generada y aplicada a esferas."
          else " colores únicos generada (solo materiales)."))%string)].
Proof.
  unfold execute. destruct (String.eqb_spec filepath "") as [->|Hfp].
  { intros H. injection H as <-. discriminate. }
  destruct (extraer_paleta_de_imagen w filepath _ _ _) as [out colores] eqn:Hex.
  destruct colores as [[|c cs]|].
  - intros H. injection H as <-. discriminate.
  - destruct (extraer_success _ _ _ _ _ Hex) as [-> _].
    intros H Hr. split; [assumption|].
    exists (c :: cs). split; [discriminate|]. split; [reflexivity|].
    destruct (crear_objetos_referencia (settings b)).
    + unfold bind in H.
      destruct (crear_esferas_de_paleta _ _ _) as [e|b2]; [discriminate|].
      injection H as <-. auto.
    + injection H as <-. auto.
  - intros H. injection H as <-. discriminate.
Qed.

End OperatorCancel.

Lemma execute_cancels_after_the_cleanup_witness :
  execute (L := Toy.libraries) Toy.no_file "a.png" Toy.blender_after_a_run
  = inr (mkOutcome (limpiar_materiales_paleta Toy.blender_after_a_run)
           [(INFO, "Procesando imagen: a.png");
            (ERROR,
             "No se pudieron extraer colores de la imagen. Verifica la ruta o el archivo.")]
           ["Error: La imagen no se encontró en la ruta: a.png"] CANCELLED).
Proof.
  refine (proj1
            (@execute_cancels_after_the_cleanup Toy.libraries Toy.no_file
               "a.png" Toy.blender_after_a_run _ None _ eq_refl
               (or_introl eq_refl))).
  discriminate.
Defined.

Lemma execute_finished_means_colours_witness :
  "a.png" <> "" /\
  exists palette,
    palette <> [] /\
    extraer_paleta_de_imagen (L := Toy.libraries)
      (Toy.one_file "a.png" Toy.black_white 0) "a.png"
      (num_colores_paleta (settings Toy.blender_two_colours))
      (reescalar_imagen_procesamiento (settings Toy.blender_two_colours))
      (tolerancia_color_unicos (settings Toy.blender_two_colours))
    = ([], Some palette) /\
    @nil string = [] /\
    [(INFO, "Procesando imagen: a.png");
     (INFO, "Paleta de 2 colores únicos generada y aplicada a esferas.")]
    = [(INFO, "Procesando imagen: " ++ "a.png")%string;
       (INFO,
        ("Paleta de " ++ str_of_nat (List.length palette) ++
         (if crear_objetos_referencia (settings Toy.blender_two_colours)
          then " colores únicos generada y aplicada a esferas."
          else " colores únicos generada (solo materiales)."))%string)].
Proof.
  refine (@execute_finished_means_colours Toy.libraries
            (Toy.one_file "a.png" Toy.black_white 0) "a.png"
            Toy.blender_two_colours
            (mkOutcome _ _ _ _) _ eq_refl).
  vm_compute. reflexivity.
Defined.

(** ** The spheres *)

























